(** * LoadBalancerTest: the FastAPI service of [app/main.py]

    The program is one module:

<<
    from fastapi import FastAPI
    import socket

    app = FastAPI()

    @app.get("/")
    def read_root():
        return {"message": "Hello from FastAPI", "hostname": socket.gethostname()}
>>

    The embedding has three layers.
    - [Py]: Python [str] values, their decoding from and encoding to
      bytes, the values the handler builds, and [json.dumps] as
      Starlette's [JSONResponse.render] calls it; with a reader for flat
      JSON objects, used to say what a body parses to.
    - [Socket] and the handler [read_root], in a state and exception monad
      over the process state (operating system and module globals).
    - [Framework]: the part of FastAPI/Starlette the module relies on:
      the application object built by [FastAPI()], the [@app.get]
      decorator, routing, and the conversion of results and exceptions to
      responses.

    Bytes are Rocq strings. A Python [str] is a list of characters, each
    a Unicode scalar value held by its UTF-8 code units, or a lone
    surrogate standing for a byte that could not be decoded. The
    interpreter's filesystem encoding is UTF-8. *)

From Stdlib Require Import String Ascii List Bool Arith Lia.
Import ListNotations.
Open Scope string_scope.

(** ** Exceptions and results *)

Inductive PyExn : Type :=
| OSError
| UnicodeEncodeError
| UnicodeDecodeError.

Inductive Result (A : Type) : Type :=
| Ok (a : A)
| Raised (e : PyExn).
Arguments Ok {A} a.
Arguments Raised {A} e.

(** ** Python values and JSON text *)

Module Py.

Local Open Scope nat_scope.
#[local] Set Warnings "-register-all,-abstract-large-number".

(** *** [str] and bytes *)

(** A character of a [str]: a scalar value, by its UTF-8 code units, or
    the lone surrogate U+DC00+b that [surrogateescape] puts for the
    undecodable byte [b]. *)
Inductive PyChar : Type :=
| Chr (units : string)
| Surrogate (b : ascii).

Definition pystr : Type := list PyChar.

(** A [str] literal of the source text; the literals here are ASCII. *)
Fixpoint lit (s : string) : pystr :=
  match s with
  | EmptyString => []
  | String c r => Chr (String c "") :: lit r
  end.

Definition in_range (lo hi : nat) (c : ascii) : bool :=
  (lo <=? nat_of_ascii c) && (nat_of_ascii c <=? hi).

Definition is_cont (c : ascii) : bool := in_range 128 191 c.

(** The length of the sequence a first byte announces in well-formed
    UTF-8; 0 for a byte that starts none (0x80..0xC1, 0xF5..0xFF). *)
Definition seq_len (b0 : ascii) : nat :=
  let n := nat_of_ascii b0 in
  if n <? 128 then 1
  else if n <? 194 then 0
  else if n <? 224 then 2
  else if n <? 240 then 3
  else if n <? 245 then 4
  else 0.

(** The second byte of a sequence: narrowed after 0xE0 and 0xF0 (no
    overlong form), after 0xED (no surrogate) and after 0xF4 (nothing
    above U+10FFFF). *)
Definition second_ok (b0 b1 : ascii) : bool :=
  let n := nat_of_ascii b0 in
  if n =? 224 then in_range 160 191 b1
  else if n =? 237 then in_range 128 159 b1
  else if n =? 240 then in_range 144 191 b1
  else if n =? 244 then in_range 128 143 b1
  else is_cont b1.

(** [PyUnicode_DecodeFSDefault]: UTF-8 with the [surrogateescape] error
    handler. A well-formed sequence starting at the current byte is one
    character; otherwise the byte is escaped and decoding goes on at the
    next byte. *)
Fixpoint fsdecode (s : string) : pystr :=
  match s with
  | EmptyString => []
  | String b0 r0 =>
      match seq_len b0 with
      | 1 => Chr (String b0 "") :: fsdecode r0
      | 2 =>
          match r0 with
          | String b1 r1 =>
              if second_ok b0 b1
              then Chr (String b0 (String b1 "")) :: fsdecode r1
              else Surrogate b0 :: fsdecode r0
          | _ => Surrogate b0 :: fsdecode r0
          end
      | 3 =>
          match r0 with
          | String b1 (String b2 r2) =>
              if second_ok b0 b1 && is_cont b2
              then Chr (String b0 (String b1 (String b2 ""))) :: fsdecode r2
              else Surrogate b0 :: fsdecode r0
          | _ => Surrogate b0 :: fsdecode r0
          end
      | 4 =>
          match r0 with
          | String b1 (String b2 (String b3 r3)) =>
              if second_ok b0 b1 && is_cont b2 && is_cont b3
              then Chr (String b0 (String b1 (String b2 (String b3 ""))))
                     :: fsdecode r3
              else Surrogate b0 :: fsdecode r0
          | _ => Surrogate b0 :: fsdecode r0
          end
      | _ => Surrogate b0 :: fsdecode r0
      end
  end.

Definition is_chr (c : PyChar) : bool :=
  match c with Chr _ => true | Surrogate _ => false end.

(** A [str] without lone surrogate. *)
Definition encodable (s : pystr) : bool := forallb is_chr s.

(** The bytes of the characters, a lone surrogate giving back the byte
    it stands for ([os.fsencode]). *)
Fixpoint units_of (s : pystr) : string :=
  match s with
  | [] => ""
  | Chr u :: r => u ++ units_of r
  | Surrogate b :: r => String b (units_of r)
  end.

(** [s.encode("utf-8")]: a lone surrogate cannot be encoded. *)
Definition encode_utf8 (s : pystr) : Result string :=
  if encodable s then Ok (units_of s) else Raised UnicodeEncodeError.

(** Bytes that are well-formed UTF-8: decoding escapes none of them. *)
Definition utf8 (bytes : string) : bool := encodable (fsdecode bytes).

(** [bytes.decode()]: UTF-8, strict. *)
Definition decode_utf8 (bytes : string) : Result pystr :=
  if utf8 bytes then Ok (fsdecode bytes) else Raised UnicodeDecodeError.

(** The UTF-8 bytes of [bytes.decode("latin-1")]. *)
Fixpoint latin1 (bytes : string) : string :=
  match bytes with
  | EmptyString => EmptyString
  | String c r =>
      let n := nat_of_ascii c in
      if n <? 128 then String c (latin1 r)
      else String (ascii_of_nat (192 + n / 64))
             (String (ascii_of_nat (128 + n mod 64)) (latin1 r))
  end.

(** *** Values *)

(** The values that occur: [None], [str] and [dict] with [str] keys
    (insertion ordered, hence an association list). *)
Inductive PyVal : Type :=
| PyNone
| PyStr (s : pystr)
| PyDict (items : list (pystr * PyVal)).

(** *** [json.dumps] *)

Definition dquote : ascii := ascii_of_nat 34.
Definition backslash : ascii := ascii_of_nat 92.

Definition hex_digit (n : nat) : ascii :=
  match n with
  | 0 => "0" | 1 => "1" | 2 => "2" | 3 => "3" | 4 => "4"
  | 5 => "5" | 6 => "6" | 7 => "7" | 8 => "8" | 9 => "9"
  | 10 => "a" | 11 => "b" | 12 => "c" | 13 => "d" | 14 => "e"
  | _ => "f"
  end%char.

(** The replacement of one ASCII character in
    [json.encoder.py_encode_basestring]: the quote, the backslash and the
    control characters below 0x20 are escaped, every other character is
    copied. *)
Definition escape_char (c : ascii) : string :=
  let n := nat_of_ascii c in
  if n =? 34 then String backslash (String dquote "")
  else if n =? 92 then String backslash (String backslash "")
  else if n =? 8 then String backslash "b"
  else if n =? 12 then String backslash "f"
  else if n =? 10 then String backslash "n"
  else if n =? 13 then String backslash "r"
  else if n =? 9 then String backslash "t"
  else if n <? 32 then
    String backslash
      (String "u" (String "0" (String "0"
         (String (hex_digit (n / 16)) (String (hex_digit (n mod 16)) "")))))
  else String c "".

(** With [ensure_ascii=False] the characters beyond ASCII, lone
    surrogates included, are copied. *)
Definition escape_pychar (c : PyChar) : pystr :=
  match c with
  | Chr (String a EmptyString) => lit (escape_char a)
  | _ => [c]
  end.

Definition escape (s : pystr) : pystr := flat_map escape_pychar s.

Definition encode_basestring (s : pystr) : pystr :=
  (lit (String dquote "") ++ escape s ++ lit (String dquote ""))%list.

(** [", ".join] of texts. *)
Fixpoint join (sep : pystr) (l : list pystr) : pystr :=
  match l with
  | [] => []
  | [x] => x
  | x :: r => (x ++ sep ++ join sep r)%list
  end.

(** [json.dumps(v, ensure_ascii=False, separators=(",", ":"))]: the JSON
    text, a [str]. *)
Fixpoint json_dumps (v : PyVal) : pystr :=
  match v with
  | PyNone => lit "null"
  | PyStr s => encode_basestring s
  | PyDict items =>
      (lit "{"
       ++ join (lit ",")
            (map (fun kv => encode_basestring (fst kv) ++ lit ":" ++ json_dumps (snd kv))
                 items)
       ++ lit "}")%list
  end.

(** [JSONResponse.render]: [json.dumps(...).encode("utf-8")]. *)
Definition render (v : PyVal) : Result string := encode_utf8 (json_dumps v).

(** *** Reading flat JSON objects

    A reader of the bytes of a body, for the JSON objects whose members
    are strings or [null]: a lexer over the bytes, then a parser over the
    tokens. It accepts insignificant white space and every escape of RFC
    8259 outside the surrogate range. A string is given by its UTF-8
    bytes. *)

Inductive JVal : Type :=
| JNull
| JString (s : string).


(** The member named [k]. *)
Fixpoint member (items : list (string * JVal)) (k : string) : option JVal :=
  match items with
  | [] => None
  | (k', v) :: rest => if String.eqb k' k then Some v else member rest k
  end.

Inductive Token : Type :=
| TLBrace | TRBrace | TColon | TComma | TNull
| TString (s : string).

Inductive LexState : Type :=
| Idle
| InStr (acc : string)
| Esc (acc : string)
| Uni (acc : string) (more : nat) (v : nat)
| Lit (expect : string).

Definition is_ws (c : ascii) : bool :=
  let n := nat_of_ascii c in
  (n =? 32) || (n =? 9) || (n =? 10) || (n =? 13).

Definition hex_value (c : ascii) : option nat :=
  let n := nat_of_ascii c in
  if (48 <=? n) && (n <=? 57) then Some (n - 48)
  else if (97 <=? n) && (n <=? 102) then Some (n - 87)
  else if (65 <=? n) && (n <=? 70) then Some (n - 55)
  else None.

Definition unescape (c : ascii) : option ascii :=
  let n := nat_of_ascii c in
  if n =? 34 then Some dquote
  else if n =? 92 then Some backslash
  else if n =? 47 then Some "/"%char
  else if n =? 98 then Some (ascii_of_nat 8)
  else if n =? 102 then Some (ascii_of_nat 12)
  else if n =? 110 then Some (ascii_of_nat 10)
  else if n =? 114 then Some (ascii_of_nat 13)
  else if n =? 116 then Some (ascii_of_nat 9)
  else None.

(** UTF-8 code units of a code point of the basic plane; the surrogates
    are refused. *)
Definition utf8_of_code_point (cp : nat) : option string :=
  if cp <? 128 then Some (String (ascii_of_nat cp) "")
  else if cp <? 2048 then
    Some (String (ascii_of_nat (192 + cp / 64))
           (String (ascii_of_nat (128 + cp mod 64)) ""))
  else if (55296 <=? cp) && (cp <=? 57343) then None
  else
    Some (String (ascii_of_nat (224 + cp / 4096))
           (String (ascii_of_nat (128 + (cp / 64) mod 64))
             (String (ascii_of_nat (128 + cp mod 64)) ""))).

Definition emit (t : Token) (r : option (list Token)) : option (list Token) :=
  option_map (cons t) r.

Fixpoint lex (st : LexState) (s : string) : option (list Token) :=
  match s with
  | EmptyString => match st with Idle => Some [] | _ => None end
  | String c r =>
      match st with
      | Idle =>
          let n := nat_of_ascii c in
          if is_ws c then lex Idle r
          else if n =? 123 then emit TLBrace (lex Idle r)
          else if n =? 125 then emit TRBrace (lex Idle r)
          else if n =? 58 then emit TColon (lex Idle r)
          else if n =? 44 then emit TComma (lex Idle r)
          else if n =? 34 then lex (InStr "") r
          else if n =? 110 then lex (Lit "ull") r
          else None
      | InStr acc =>
          let n := nat_of_ascii c in
          if n =? 34 then emit (TString acc) (lex Idle r)
          else if n =? 92 then lex (Esc acc) r
          else if n <? 32 then None
          else lex (InStr (acc ++ String c "")) r
      | Esc acc =>
          match unescape c with
          | Some d => lex (InStr (acc ++ String d "")) r
          | None => if nat_of_ascii c =? 117 then lex (Uni acc 3 0) r else None
          end
      | Uni acc more v =>
          match hex_value c with
          | None => None
          | Some d =>
              match more with
              | 0 =>
                  match utf8_of_code_point (16 * v + d) with
                  | Some u => lex (InStr (acc ++ u)) r
                  | None => None
                  end
              | S more' => lex (Uni acc more' (16 * v + d)) r
              end
          end
      | Lit expect =>
          match expect with
          | EmptyString => None
          | String e EmptyString =>
              if Ascii.eqb c e then emit TNull (lex Idle r) else None
          | String e rest =>
              if Ascii.eqb c e then lex (Lit rest) r else None
          end
      end
  end.

Definition value_of_token (t : Token) : option JVal :=
  match t with
  | TString s => Some (JString s)
  | TNull => Some JNull
  | _ => None
  end.

(** The members of an object after its opening brace, up to and
    including the closing brace, which must end the input. *)
Fixpoint parse_members (ts : list Token) : option (list (string * JVal)) :=
  match ts with
  | TString k :: TColon :: t :: rest =>
      match value_of_token t with
      | None => None
      | Some v =>
          match rest with
          | [TRBrace] => Some [(k, v)]
          | TComma :: rest' =>
              option_map (cons (k, v)) (parse_members rest')
          | _ => None
          end
      end
  | _ => None
  end.

Definition parse_object (ts : list Token) : option (list (string * JVal)) :=
  match ts with
  | [TLBrace; TRBrace] => Some []
  | TLBrace :: rest => parse_members rest
  | _ => None
  end.

Definition json_loads (s : string) : option (list (string * JVal)) :=
  match lex Idle s with
  | Some ts => parse_object ts
  | None => None
  end.

(** What a flat value and the members of a flat dict are read back as,
    and their tokens. *)
Definition jval_of (v : PyVal) : JVal :=
  match v with PyStr s => JString (units_of s) | _ => JNull end.

Definition jitems_of (items : list (pystr * PyVal)) : list (string * JVal) :=
  map (fun kv => (units_of (fst kv), jval_of (snd kv))) items.

Definition token_of (v : JVal) : Token :=
  match v with JString s => TString s | JNull => TNull end.

Fixpoint member_tokens (items : list (string * JVal)) : list Token :=
  match items with
  | [] => []
  | (k, v) :: rest =>
      TString k :: TColon :: token_of v ::
        match rest with
        | [] => []
        | _ :: _ => TComma :: member_tokens rest
        end
  end.

(** The characters the decoder produces are one byte, or a sequence of
    bytes all from 0x80 up, or an escaped byte. *)
Definition high (c : ascii) : bool := 128 <=? nat_of_ascii c.

Fixpoint all_high (u : string) : bool :=
  match u with
  | EmptyString => true
  | String c r => high c && all_high r
  end.

Definition plain_char (c : PyChar) : bool :=
  match c with
  | Chr (String _ EmptyString) => true
  | Chr u => all_high u
  | Surrogate _ => false
  end.

Definition decoded_char (c : PyChar) : bool :=
  match c with
  | Surrogate _ => true
  | _ => plain_char c
  end.

(** A [str] of decoded characters without lone surrogate. *)
Definition plain (s : pystr) : bool := forallb plain_char s.

Definition plain_value (v : PyVal) : bool :=
  match v with
  | PyNone => true
  | PyStr s => plain s
  | PyDict _ => false
  end.

Definition plain_items (items : list (pystr * PyVal)) : bool :=
  forallb (fun kv => plain (fst kv) && plain_value (snd kv)) items.

End Py.

Import Py.

(** ** The process and its environment *)

(** What the operating system holds that a request handler could reach:
    the bytes of the host name the kernel keeps, fewer than the 1023 the
    buffer of [socket.gethostname] takes ([None] when the [gethostname]
    system call fails), the files on disk, and the calls placed to other
    services. *)
Record OS : Type := mkOS {
  kernel_hostname : option string;
  disk : list (string * string);
  outbound : list string
}.

(** Route tables name their endpoints; the code of a path operation
    function is found by its name in [code] below. *)
Inductive Endpoint : Type :=
| PathOperation (fname : string)
| OpenAPISchema
| SwaggerUI
| SwaggerUIRedirect
| ReDoc.

Record Route : Type := mkRoute {
  route_path : string;
  route_methods : list string;
  endpoint : Endpoint
}.

(** The application object: [app.router.routes]. *)
Record FastAPI : Type := mkFastAPI {
  routes : list Route
}.

(** Objects bound at module level. *)
Inductive PyObj : Type :=
| ObjClass (qualname : string)
| ObjModule (name : string)
| ObjFunction (name : string)
| ObjApp (a : FastAPI).

Definition Namespace : Type := list (string * PyObj).

Record Process : Type := mkProcess {
  os : OS;
  globals : Namespace
}.

(** ** State and exception monad *)

Definition M (A : Type) : Type := Process -> Result A * Process.

Definition ret {A} (a : A) : M A := fun p => (Ok a, p).

Definition raise {A} (e : PyExn) : M A := fun p => (Raised e, p).

(** A computation that touches no state. *)
Definition lift {A} (r : Result A) : M A := fun p => (r, p).

Definition bind {A B} (m : M A) (k : A -> M B) : M B :=
  fun p =>
    match m p with
    | (Ok a, p') => k a p'
    | (Raised e, p') => (Raised e, p')
    end.

Notation "x <- m ;; k" := (bind m (fun x => k))
  (at level 61, m at next level, right associativity).

(** ** The [socket] module *)

Module Socket.

(** The C string in a buffer: the bytes before the first NUL. *)
Fixpoint c_str (buf : string) : string :=
  match buf with
  | EmptyString => EmptyString
  | String c r => if Nat.eqb (nat_of_ascii c) 0 then EmptyString else String c (c_str r)
  end.

(** [socket.gethostname()]: [OSError] when the system call fails;
    otherwise the C string it left in the buffer, decoded by
    [PyUnicode_DecodeFSDefault]. It reads the environment and changes
    nothing. *)
Definition gethostname : M pystr :=
  fun p =>
    match kernel_hostname (os p) with
    | Some buf => (Ok (fsdecode (c_str buf)), p)
    | None => (Raised OSError, p)
    end.

End Socket.

(** ** [app/main.py] *)

(** [def read_root(): return {"message": ..., "hostname": socket.gethostname()}] *)
Definition read_root : M PyVal :=
  h <- Socket.gethostname ;;
  ret (PyDict [(lit "message", PyStr (lit "Hello from FastAPI"));
               (lit "hostname", PyStr h)]).

(** The function definitions of the module, by name. *)
Definition code (fname : string) : option (M PyVal) :=
  if String.eqb fname "read_root" then Some read_root else None.

(** ** The framework *)

Module Framework.

(** [FastAPI()] with no argument keeps [openapi_url], [docs_url],
    [swagger_ui_oauth2_redirect_url] and [redoc_url] at their defaults,
    and [setup()] adds a Starlette [Route] for each. A Starlette [Route]
    on a function answers GET and HEAD. *)
Definition builtin (path : string) (e : Endpoint) : Route :=
  mkRoute path ["GET"; "HEAD"] e.

Definition new_FastAPI : FastAPI :=
  mkFastAPI [ builtin "/openapi.json" OpenAPISchema;
              builtin "/docs" SwaggerUI;
              builtin "/docs/oauth2-redirect" SwaggerUIRedirect;
              builtin "/redoc" ReDoc ].

(** [app.get(path)(func)]: appends an [APIRoute] with methods [{"GET"}]. *)
Definition get (a : FastAPI) (path fname : string) : FastAPI :=
  mkFastAPI (routes a ++ [mkRoute path ["GET"] (PathOperation fname)])%list.

(** *** Requests and responses *)

(** The ASGI scope of an HTTP request and its body. The path is the
    UTF-8 of [scope["path"]]; the header names are in lower case. The
    scheme is [http], the root path is empty and the scope names no
    server address. *)
Record Request : Type := mkRequest {
  method : string;
  path : string;
  query_string : string;
  headers : list (string * string);
  body : string
}.

(** A body is text, one of the framework's own documents (left
    symbolic), or empty. *)
Inductive Body : Type :=
| Text (s : string)
| Document (e : Endpoint)
| NoBody.

Record Response : Type := mkResponse {
  status_code : nat;
  content_type : option string;
  location : option string;
  content : Body
}.

(** [JSONResponse(content, status_code)]: the body is rendered when the
    response is built, which raises if the text cannot be encoded. *)
Definition JSONResponse (v : PyVal) (status : nat) : Result Response :=
  match render v with
  | Ok bytes => Ok (mkResponse status (Some "application/json") None (Text bytes))
  | Raised e => Raised e
  end.

(** [PlainTextResponse(text, status_code)] *)
Definition PlainTextResponse (s : string) (status : nat) : Response :=
  mkResponse status (Some "text/plain; charset=utf-8") None (Text s).

(** [urllib.parse.quote(url, safe=":/%#?=@[]!$&'()*+,;")], on the UTF-8
    bytes of the URL. *)
Definition hex_upper (n : nat) : ascii :=
  match n with
  | 0 => "0" | 1 => "1" | 2 => "2" | 3 => "3" | 4 => "4"
  | 5 => "5" | 6 => "6" | 7 => "7" | 8 => "8" | 9 => "9"
  | 10 => "A" | 11 => "B" | 12 => "C" | 13 => "D" | 14 => "E"
  | _ => "F"
  end%char.

Definition always_safe (c : ascii) : bool :=
  in_range 65 90 c || in_range 97 122 c || in_range 48 57 c
  || existsb (Ascii.eqb c) (list_ascii_of_string "_.-~").

Definition safe (c : ascii) : bool :=
  always_safe c || existsb (Ascii.eqb c) (list_ascii_of_string ":/%#?=@[]!$&'()*+,;").

Fixpoint quote (url : string) : string :=
  match url with
  | EmptyString => EmptyString
  | String c r =>
      if safe c then String c (quote r)
      else String "%" (String (hex_upper (nat_of_ascii c / 16))
                         (String (hex_upper (nat_of_ascii c mod 16)) (quote r)))
  end.

(** [RedirectResponse(url)]: status 307, the quoted URL as [location],
    no body. *)
Definition RedirectResponse (url : string) : Response :=
  mkResponse 307 None (Some (quote url)) NoBody.

(** FastAPI's handler for [HTTPException]: [{"detail": phrase}]. *)
Definition http_exception (status : nat) (phrase : string) : Result Response :=
  JSONResponse (PyDict [(lit "detail", PyStr (lit phrase))]) status.

(** [ServerErrorMiddleware]: an exception that reaches it becomes this
    response. *)
Definition server_error : Response := PlainTextResponse "Internal Server Error" 500.

Definition answered (r : Result Response) : Response :=
  match r with
  | Ok resp => resp
  | Raised _ => server_error
  end.

(** The responses to [HTTPException(404)] and [HTTPException(405)]. *)
Definition not_found : Response := answered (http_exception 404 "Not Found").
Definition method_not_allowed : Response :=
  answered (http_exception 405 "Method Not Allowed").

(** *** Routing *)

Inductive Match : Type := NONE | PARTIAL | FULL.

Definition allows (r : Route) (m : string) : bool :=
  existsb (String.eqb m) (route_methods r).

Definition newline : ascii := ascii_of_nat 10.

(** [re.match("^" + re.escape(pattern) + "$", p)], the regular expression
    of a route path without parameters: [$] matches at the end and also
    before a newline that ends [p]. *)
Definition path_regex_match (pattern p : string) : bool :=
  String.eqb pattern p || String.eqb (pattern ++ String newline "") p.

(** [Route.matches]: the path must match the route's expression; a
    method the route does not list makes the match partial. *)
Definition matches (r : Route) (m p : string) : Match :=
  if path_regex_match (route_path r) p
  then if allows r m then FULL else PARTIAL
  else NONE.

(** The loop of [Router.app]: the first full match, else the first
    partial one. *)
Fixpoint find_route (rs : list Route) (m p : string) (partial : option Route)
  : option Route :=
  match rs with
  | [] => partial
  | r :: rest =>
      match matches r m p with
      | FULL => Some r
      | PARTIAL =>
          find_route rest m p (match partial with Some _ => partial | None => Some r end)
      | NONE => find_route rest m p partial
      end
  end.

Definition slash : ascii := "/"%char.

(** [s.rstrip("/")] *)
Fixpoint rstrip_slash (s : string) : string :=
  match s with
  | EmptyString => EmptyString
  | String c r =>
      match rstrip_slash r with
      | EmptyString => if Ascii.eqb c slash then EmptyString else String c EmptyString
      | r' => String c r'
      end
  end.

Fixpoint ends_with_slash (s : string) : bool :=
  match s with
  | EmptyString => false
  | String c EmptyString => Ascii.eqb c slash
  | String _ r => ends_with_slash r
  end.

(** The path tried by [redirect_slashes]. *)
Definition redirect_path (p : string) : string :=
  if ends_with_slash p then rstrip_slash p else p ++ "/".

(** Some route matches the path, whatever the method. *)
Definition path_known (rs : list Route) (p : string) : bool :=
  existsb (fun r => path_regex_match (route_path r) p) rs.

(** The first [host] header. *)
Fixpoint host_header (hs : list (string * string)) : option string :=
  match hs with
  | [] => None
  | (k, v) :: rest => if String.eqb k "host" then Some v else host_header rest
  end.

(** [str(URL(scope=...))] for the scope of [req] with the path replaced
    by [p]: the host comes from the [host] header; a query string that is
    not empty is decoded, which raises if it is not UTF-8. *)
Definition redirect_url (req : Request) (p : string) : Result string :=
  let url :=
    match host_header (headers req) with
    | Some h => "http://" ++ latin1 h ++ p
    | None => p
    end in
  if String.eqb (query_string req) "" then Ok url
  else match decode_utf8 (query_string req) with
       | Ok q => Ok (url ++ "?" ++ units_of q)
       | Raised e => Raised e
       end.

(** The application of a route. The result of a path operation is made
    into a [JSONResponse]; an exception of the function, or of building
    the response, goes up. The framework's own endpoints answer 200 with
    their document. *)
Definition call_endpoint (e : Endpoint) : M Response :=
  match e with
  | PathOperation fname =>
      match code fname with
      | Some f => v <- f ;; lift (JSONResponse v 200)
      | None => ret server_error
      end
  | OpenAPISchema =>
      ret (mkResponse 200 (Some "application/json") None (Document e))
  | _ =>
      ret (mkResponse 200 (Some "text/html; charset=utf-8") None (Document e))
  end.

(** [Route.handle]: a method the route does not list raises
    [HTTPException(405)], which FastAPI's handler answers. *)
Definition handle (r : Route) (req : Request) : M Response :=
  if allows r (method req) then call_endpoint (endpoint r)
  else lift (http_exception 405 "Method Not Allowed").

(** [Router.app] under FastAPI's exception handlers: the matching route,
    else the redirect of [redirect_slashes], else [HTTPException(404)]. *)
Definition dispatch (a : FastAPI) (req : Request) : M Response :=
  match find_route (routes a) (method req) (path req) None with
  | Some r => handle r req
  | None =>
      if negb (String.eqb (path req) "/")
         && path_known (routes a) (redirect_path (path req))
      then url <- lift (redirect_url req (redirect_path (path req))) ;;
           ret (RedirectResponse url)
      else lift (http_exception 404 "Not Found")
  end.

End Framework.

Import Framework.

(** ** Importing the module and serving *)

Definition bind_name (name : string) (o : PyObj) (ns : Namespace) : Namespace :=
  (ns ++ [(name, o)])%list.

Fixpoint lookup (ns : Namespace) (name : string) : option PyObj :=
  match ns with
  | [] => None
  | (n, o) :: rest => if String.eqb n name then Some o else lookup rest name
  end.

(** [@name.get(path)] on [def fname]: the application bound to [name] is
    updated in place, and the decorator hands the function back, which is
    then bound to [fname]. *)
Fixpoint decorate_get (name path fname : string) (ns : Namespace) : Namespace :=
  match ns with
  | [] => []
  | (n, o) :: rest =>
      if String.eqb n name
      then match o with
           | ObjApp a => (n, ObjApp (get a path fname)) :: rest
           | _ => (n, o) :: rest
           end
      else (n, o) :: decorate_get name path fname rest
  end.

(** The statements of [main.py] in order; the string literal between the
    assignment and the decorated function is an expression statement with
    no effect. *)
Definition main_py : Namespace :=
  let ns := [] in
  let ns := bind_name "FastAPI" (ObjClass "fastapi.FastAPI") ns in
  let ns := bind_name "socket" (ObjModule "socket") ns in
  let ns := bind_name "app" (ObjApp new_FastAPI) ns in
  let ns := decorate_get "app" "/" "read_root" ns in
  let ns := bind_name "read_root" (ObjFunction "read_root") ns in
  ns.

(** The application object once the module is imported. *)
Definition app : FastAPI :=
  match lookup main_py "app" with
  | Some (ObjApp a) => a
  | _ => mkFastAPI []
  end.

(** The server imports the module once and resolves [app.main:app]. *)
Definition boot (w : OS) : Process := mkProcess w main_py.

(** One request: the application found under [app] answers it, and
    [ServerErrorMiddleware] answers for an exception that comes up.
    Every request gets a response and the process goes on. *)
Definition serve (p : Process) (req : Request) : Response * Process :=
  match lookup (globals p) "app" with
  | Some (ObjApp a) =>
      match dispatch a req p with
      | (Ok resp, p') => (resp, p')
      | (Raised _, p') => (server_error, p')
      end
  | _ => (server_error, p)
  end.

(** What happens during the life of an instance: a request arrives, or
    the environment changes the bytes of the host name (an administrator
    renames the machine; resolution starts or stops failing). Requests
    handled by concurrent workers each read the host name in one step,
    so an execution is one such sequence. *)
Inductive Event : Type :=
| Incoming (req : Request)
| Sethostname (h : option string).

Definition sethostname (h : option string) (p : Process) : Process :=
  mkProcess (mkOS h (disk (os p)) (outbound (os p))) (globals p).

Fixpoint run (p : Process) (evs : list Event) : list Response * Process :=
  match evs with
  | [] => ([], p)
  | Incoming req :: rest =>
      let (resp, p') := serve p req in
      let (resps, p'') := run p' rest in
      (resp :: resps, p'')
  | Sethostname h :: rest => run (sethostname h p) rest
  end.

Definition is_get_root (req : Request) : bool :=
  String.eqb (method req) "GET" && String.eqb (path req) "/".

Definition get_root : Request := mkRequest "GET" "/" "" [] "".

(** The member [k] of a JSON body. *)
Definition body_field (resp : Response) (k : string) : option JVal :=
  match content resp with
  | Text s =>
      match json_loads s with
      | Some items => member items k
      | None => None
      end
  | _ => None
  end.

(** A [GET] request that the route of [read_root] matches: the path is
    [/], or [/] followed by a newline. *)
Definition routed_to_root (req : Request) : bool :=
  String.eqb (method req) "GET" && path_regex_match "/" (path req).

(** The environment gives a host name that is well-formed UTF-8. *)
Definition resolves_to_utf8 (w : OS) : bool :=
  match kernel_hostname w with
  | Some buf => utf8 (Socket.c_str buf)
  | None => false
  end.

(** No route matches the request and [redirect_slashes] finds one for
    the path with the trailing slash added or removed. *)
Definition slash_redirected (a : FastAPI) (req : Request) : bool :=
  match find_route (routes a) (method req) (path req) None with
  | Some _ => false
  | None =>
      negb (String.eqb (path req) "/")
      && path_known (routes a) (redirect_path (path req))
  end.

(** A process that has imported [main.py]. *)
Definition booted (p : Process) : Prop := globals p = main_py.

(** No event of the sequence changes the host name. *)
Definition quiet (evs : list Event) : bool :=
  forallb (fun e => match e with Incoming _ => true | Sethostname _ => false end) evs.

(** The routes of an application that lead to a function of the module. *)
Definition path_operations (a : FastAPI) : list Route :=
  filter (fun r => match endpoint r with PathOperation _ => true | _ => false end)
         (routes a).

Definition registered_paths (a : FastAPI) : list string :=
  map route_path (routes a).

(** The path matches the expression of no registered path. *)
Definition unmatched (a : FastAPI) (p : string) : Prop :=
  forall q, In q (registered_paths a) ->
            p <> q /\ p <> (q ++ String newline "")%string.

(** The names a namespace binds to functions, and to instances (objects
    that carry state, as opposed to imported classes and modules and to
    function definitions). *)
Definition functions_of (ns : Namespace) : list string :=
  map fst (filter (fun b => match snd b with ObjFunction _ => true | _ => false end) ns).

Definition instances_of (ns : Namespace) : list string :=
  map fst (filter (fun b => match snd b with ObjApp _ => true | _ => false end) ns).

(** The dict [read_root] returns when [socket.gethostname()] gives [h],
    the response made of it, and the response to [GET /] in an
    environment. *)
Definition response_body (h : pystr) : PyVal :=
  PyDict [(lit "message", PyStr (lit "Hello from FastAPI"));
          (lit "hostname", PyStr h)].

Definition response_for (h : pystr) : Response :=
  answered (JSONResponse (response_body h) 200).

Definition root_response (w : OS) : Response :=
  match kernel_hostname w with
  | Some buf => response_for (fsdecode (Socket.c_str buf))
  | None => server_error
  end.

(** Environments used as concrete inputs: a replica named [web-1], a
    machine on which the name cannot be resolved, one whose name is the
    empty string, and one whose name is the single byte 0xFF, which is
    not UTF-8. *)
Definition web1 : OS := mkOS (Some "web-1") [] [].
Definition unresolved : OS := mkOS None [] [].
Definition unnamed : OS := mkOS (Some "") [] [].
Definition misnamed : OS := mkOS (Some (String (ascii_of_nat 255) "")) [] [].


(** The host name in force after a sequence of events that started with
    [h0]: the one of the last change, if any. *)
Fixpoint hostname_after (h0 : option string) (evs : list Event) : option string :=
  match evs with
  | [] => h0
  | Incoming _ :: rest => hostname_after h0 rest
  | Sethostname h :: rest => hostname_after h rest
  end.

(** * Properties *)

(** ** Decoding and encoding *)

Section Text.

Local Open Scope nat_scope.

Lemma append_assoc (a b c : string) : ((a ++ b) ++ c = a ++ (b ++ c))%string.
Proof. induction a as [|x a IH]; simpl; [reflexivity | now rewrite IH]. Qed.

Lemma append_nil_r (a : string) : (a ++ "" = a)%string.
Proof. induction a as [|x a IH]; simpl; [reflexivity | now rewrite IH]. Qed.

Lemma units_of_app (a b : pystr) :
  units_of (a ++ b)%list = (units_of a ++ units_of b)%string.
Proof.
  induction a as [|[u|c] a IH]; cbn [List.app units_of].
  - reflexivity.
  - now rewrite IH, append_assoc.
  - now rewrite IH.
Qed.

Lemma units_of_lit (s : string) : units_of (lit s) = s.
Proof. induction s as [|c s IH]; cbn; [reflexivity | now rewrite IH]. Qed.

Lemma encodable_app (a b : pystr) :
  encodable (a ++ b)%list = encodable a && encodable b.
Proof. apply forallb_app. Qed.

Lemma encodable_lit (s : string) : encodable (lit s) = true.
Proof. induction s as [|c s IH]; [reflexivity | exact IH]. Qed.

Lemma encodable_escape (s : pystr) : encodable (escape s) = encodable s.
Proof.
  induction s as [|c s IH]; [reflexivity|].
  unfold escape in *. cbn [flat_map]. rewrite encodable_app, IH.
  destruct c as [[|a [|a' u]]|b]; cbn [escape_pychar]; try reflexivity.
  now rewrite encodable_lit.
Qed.

Lemma encodable_basestring (s : pystr) :
  encodable (encode_basestring s) = encodable s.
Proof.
  unfold encode_basestring.
  rewrite !encodable_app, !encodable_lit, encodable_escape.
  now rewrite andb_true_r.
Qed.

Lemma plain_encodable (s : pystr) : plain s = true -> encodable s = true.
Proof.
  induction s as [|c s IH]; [reflexivity|].
  unfold plain, encodable in *. cbn [forallb]. intros H.
  apply andb_prop in H as [Hc Hs]. rewrite (IH Hs), andb_true_r.
  destruct c; [reflexivity | discriminate].
Qed.

Lemma decoded_encodable_plain (s : pystr) :
  forallb decoded_char s = true -> encodable s = true -> plain s = true.
Proof.
  induction s as [|c s IH]; [reflexivity|].
  unfold plain, encodable in *. cbn [forallb]. intros Hd He.
  apply andb_prop in Hd as [Hc Hs]. apply andb_prop in He as [Hc' Hs'].
  rewrite (IH Hs Hs'), andb_true_r.
  destruct c; [exact Hc | discriminate].
Qed.

Lemma is_cont_high (c : ascii) : is_cont c = true -> high c = true.
Proof.
  unfold is_cont, in_range, high. intros H.
  apply andb_prop in H as [H _]. apply Nat.leb_le in H. apply Nat.leb_le. lia.
Qed.

Lemma second_ok_high (b0 b1 : ascii) : second_ok b0 b1 = true -> high b1 = true.
Proof.
  unfold second_ok.
  repeat match goal with |- context [if ?b then _ else _] => destruct b end;
    try apply is_cont_high;
    unfold in_range, high; intros H;
    apply andb_prop in H as [H _]; apply Nat.leb_le in H; apply Nat.leb_le; lia.
Qed.

Lemma seq_len_high (b0 : ascii) (n : nat) : seq_len b0 = S (S n) -> high b0 = true.
Proof.
  unfold seq_len, high.
  destruct (nat_of_ascii b0 <? 128) eqn:E; [discriminate|].
  intros _. apply Nat.ltb_ge in E. now apply Nat.leb_le.
Qed.

(** Decoding loses nothing: the bytes are found again in the characters,
    and every character is of the decoder's making. *)
Lemma fsdecode_spec (n : nat) (s : string) :
  String.length s <= n ->
  units_of (fsdecode s) = s /\ forallb decoded_char (fsdecode s) = true.
Proof.
  revert s; induction n as [|n IH]; intros s Hlen.
  - destruct s; [split; reflexivity | cbn in Hlen; lia].
  - destruct s as [|b0 r0]; [split; reflexivity|].
    cbn [String.length] in Hlen.
    assert (units_of (Surrogate b0 :: fsdecode r0) = String b0 r0 /\
            forallb decoded_char (Surrogate b0 :: fsdecode r0) = true) as Hesc.
    { destruct (IH r0 ltac:(lia)) as [Hu Hd].
      cbn [units_of forallb decoded_char]. rewrite Hu, Hd. split; reflexivity. }
    cbn [fsdecode].
    destruct (seq_len b0) as [|[|[|[|[|k]]]]] eqn:Hl; try exact Hesc.
    + destruct r0 as [|b1 r1]; [exact Hesc|].
      destruct (second_ok b0 b1) eqn:H1; [|exact Hesc].
      cbn [String.length] in Hlen.
      destruct (IH r1 ltac:(lia)) as [Hu Hd].
      cbn [units_of forallb decoded_char plain_char all_high append].
      rewrite Hu, Hd, (seq_len_high _ _ Hl), (second_ok_high _ _ H1).
      split; reflexivity.
    + destruct r0 as [|b1 [|b2 r2]]; try exact Hesc.
      destruct (second_ok b0 b1) eqn:H1; [|exact Hesc].
      destruct (is_cont b2) eqn:H2; [|exact Hesc].
      cbn [String.length] in Hlen.
      destruct (IH r2 ltac:(lia)) as [Hu Hd].
      cbn [andb units_of forallb decoded_char plain_char all_high append].
      rewrite Hu, Hd, (seq_len_high _ _ Hl), (second_ok_high _ _ H1),
        (is_cont_high _ H2).
      split; reflexivity.
    + destruct r0 as [|b1 [|b2 [|b3 r3]]]; try exact Hesc.
      destruct (second_ok b0 b1) eqn:H1; [|exact Hesc].
      destruct (is_cont b2) eqn:H2; [|exact Hesc].
      destruct (is_cont b3) eqn:H3; [|exact Hesc].
      cbn [String.length] in Hlen.
      destruct (IH r3 ltac:(lia)) as [Hu Hd].
      cbn [andb units_of forallb decoded_char plain_char all_high append].
      rewrite Hu, Hd, (seq_len_high _ _ Hl), (second_ok_high _ _ H1),
        (is_cont_high _ H2), (is_cont_high _ H3).
      split; reflexivity.
Qed.

Lemma units_of_fsdecode (s : string) : units_of (fsdecode s) = s.
Proof. apply (fsdecode_spec (String.length s)). lia. Qed.

Lemma fsdecode_decoded (s : string) : forallb decoded_char (fsdecode s) = true.
Proof. apply (fsdecode_spec (String.length s)). lia. Qed.

Lemma utf8_plain (s : string) : utf8 s = true -> plain (fsdecode s) = true.
Proof. intros H. apply decoded_encodable_plain; [apply fsdecode_decoded | exact H]. Qed.

Lemma plain_lit (s : string) : plain (lit s) = true.
Proof. induction s as [|c s IH]; [reflexivity | exact IH]. Qed.

End Text.

(** ** JSON text: what is written is read back *)

Section JsonRoundTrip.

Local Open Scope nat_scope.

(** One escaped character is read back as that character. *)
Lemma lex_escape_char (c : ascii) (acc tl : string) :
  lex (InStr acc) (escape_char c ++ tl) = lex (InStr (acc ++ String c "")) tl.
Proof.
  destruct c as [[] [] [] [] [] [] [] []]; reflexivity.
Qed.

(** A byte from 0x80 up is copied. *)
Lemma lex_copy_high (c : ascii) (acc tl : string) :
  high c = true ->
  lex (InStr acc) (String c tl) = lex (InStr (acc ++ String c "")) tl.
Proof.
  destruct c as [[] [] [] [] [] [] [] []]; intros H;
    try discriminate H; reflexivity.
Qed.

Lemma lex_copy_all_high (u acc tl : string) :
  all_high u = true ->
  lex (InStr acc) (u ++ tl) = lex (InStr (acc ++ u)) tl.
Proof.
  revert acc; induction u as [|c u IH]; intros acc H.
  - now rewrite append_nil_r.
  - cbn [all_high] in H. apply andb_prop in H as [Hc Hu].
    cbn [append]. rewrite (lex_copy_high c acc _ Hc), (IH _ Hu).
    now rewrite append_assoc.
Qed.

Lemma lex_escape_pychar (c : PyChar) (acc tl : string) :
  plain_char c = true ->
  lex (InStr acc) (units_of (escape_pychar c) ++ tl)
  = lex (InStr (acc ++ units_of [c])) tl.
Proof.
  destruct c as [[|a [|a' u]]|b]; intros H; try discriminate H.
  - cbn. now rewrite append_nil_r.
  - cbn [escape_pychar units_of]. rewrite units_of_lit, append_nil_r.
    apply lex_escape_char.
  - cbn [escape_pychar units_of]. rewrite append_nil_r.
    apply lex_copy_all_high. exact H.
Qed.

Lemma lex_escape (s : pystr) (acc tl : string) :
  plain s = true ->
  lex (InStr acc) (units_of (escape s) ++ tl) = lex (InStr (acc ++ units_of s)) tl.
Proof.
  revert acc; induction s as [|c s IH]; intros acc H.
  - cbn. now rewrite append_nil_r.
  - unfold plain in H. cbn [forallb] in H. apply andb_prop in H as [Hc Hs].
    unfold escape in *. cbn [flat_map].
    rewrite units_of_app, append_assoc, (lex_escape_pychar c _ _ Hc), (IH _ Hs).
    change (c :: s) with ([c] ++ s)%list.
    now rewrite (units_of_app [c] s), append_assoc.
Qed.

Lemma lex_basestring (s : pystr) (tl : string) :
  plain s = true ->
  lex Idle (units_of (encode_basestring s) ++ tl)
  = emit (TString (units_of s)) (lex Idle tl).
Proof.
  intros H. unfold encode_basestring.
  rewrite !units_of_app, !units_of_lit, !append_assoc.
  change (lex Idle (String dquote "" ++ ?x)) with (lex (InStr "") x).
  rewrite (lex_escape s "" _ H). reflexivity.
Qed.

Lemma lex_value (v : PyVal) (tl : string) :
  plain_value v = true ->
  lex Idle (units_of (json_dumps v) ++ tl) = emit (token_of (jval_of v)) (lex Idle tl).
Proof.
  destruct v as [|s|items]; intros H.
  - reflexivity.
  - now apply lex_basestring.
  - discriminate.
Qed.

Lemma lex_colon (s : string) : lex Idle (":" ++ s) = emit TColon (lex Idle s).
Proof. reflexivity. Qed.

Lemma lex_comma (s : string) : lex Idle ("," ++ s) = emit TComma (lex Idle s).
Proof. reflexivity. Qed.

Lemma lex_lbrace (s : string) : lex Idle ("{" ++ s) = emit TLBrace (lex Idle s).
Proof. reflexivity. Qed.

Lemma lex_member (k : pystr) (v : PyVal) (tl : string) :
  plain k = true -> plain_value v = true ->
  lex Idle (units_of (encode_basestring k ++ lit ":" ++ json_dumps v)%list ++ tl)
  = option_map (List.app [TString (units_of k); TColon; token_of (jval_of v)])
               (lex Idle tl).
Proof.
  intros Hk Hv.
  rewrite !units_of_app, units_of_lit, !append_assoc.
  rewrite (lex_basestring k _ Hk), lex_colon, (lex_value v _ Hv).
  destruct (lex Idle tl); reflexivity.
Qed.

Lemma lex_members (items : list (pystr * PyVal)) (tl : string) :
  plain_items items = true ->
  lex Idle (units_of
              (join (lit ",")
                 (map (fun kv => encode_basestring (fst kv) ++ lit ":" ++ json_dumps (snd kv))%list
                      items)) ++ tl)
  = option_map (List.app (member_tokens (jitems_of items))) (lex Idle tl).
Proof.
  induction items as [|[k v] rest IH]; intros H.
  - cbn. destruct (lex Idle tl); reflexivity.
  - unfold plain_items in H. cbn [forallb fst snd] in H.
    apply andb_prop in H as [Hkv Hrest]. apply andb_prop in Hkv as [Hk Hv].
    destruct rest as [|kv rest'].
    + cbn [map join fst snd jitems_of member_tokens].
      now apply lex_member.
    + change (join ?sep (map ?f ((k, v) :: kv :: rest')))
        with (f (k, v) ++ sep ++ join sep (map f (kv :: rest')))%list.
      cbn beta. cbn [fst snd].
      rewrite (units_of_app (encode_basestring k ++ lit ":" ++ json_dumps v)%list),
        append_assoc, (lex_member k v _ Hk Hv).
      rewrite units_of_app, units_of_lit, append_assoc, lex_comma.
      rewrite (IH Hrest).
      destruct (lex Idle tl); reflexivity.
Qed.

Lemma value_of_token_of (v : JVal) : value_of_token (token_of v) = Some v.
Proof. destruct v; reflexivity. Qed.

Lemma parse_member_tokens (kv : string * JVal) (items : list (string * JVal)) :
  parse_members (member_tokens (kv :: items) ++ [TRBrace]) = Some (kv :: items).
Proof.
  revert kv; induction items as [|kv' rest IH]; intros [k v].
  - cbn. rewrite (value_of_token_of v). reflexivity.
  - change (member_tokens ((k, v) :: kv' :: rest) ++ [TRBrace])%list
      with (TString k :: TColon :: token_of v :: TComma
              :: (member_tokens (kv' :: rest) ++ [TRBrace]))%list.
    cbn [parse_members]. rewrite (value_of_token_of v).
    rewrite (IH kv'). reflexivity.
Qed.

(** The bytes of a flat dict written by [json_dumps] are read back by
    [json_loads] as its members. *)
Lemma json_loads_dumps (items : list (pystr * PyVal)) :
  plain_items items = true ->
  json_loads (units_of (json_dumps (PyDict items))) = Some (jitems_of items).
Proof.
  intros H. unfold json_loads. cbn [json_dumps].
  rewrite !units_of_app, !units_of_lit.
  rewrite lex_lbrace, (lex_members items "}" H).
  change (lex Idle "}") with (Some [TRBrace]).
  cbn [option_map emit].
  destruct items as [|kv rest].
  - reflexivity.
  - destruct kv as [k v].
    change (jitems_of ((k, v) :: rest))
      with ((units_of k, jval_of v) :: jitems_of rest).
    change (parse_object (TLBrace :: ?ts)%list) with (parse_members ts).
    apply parse_member_tokens.
Qed.

End JsonRoundTrip.

(** ** The handler and the server *)

Section Serving.

Lemma read_root_spec (p : Process) :
  read_root p =
  (match kernel_hostname (os p) with
   | Some buf => Ok (response_body (fsdecode (Socket.c_str buf)))
   | None => Raised OSError
   end, p).
Proof.
  unfold read_root, bind, Socket.gethostname, ret, response_body.
  destruct (kernel_hostname (os p)); reflexivity.
Qed.

Lemma code_cases (fname : string) :
  code fname = Some read_root \/ code fname = None.
Proof. unfold code. destruct (String.eqb fname "read_root"); auto. Qed.

Lemma call_endpoint_state (e : Endpoint) (p : Process) :
  snd (call_endpoint e p) = p.
Proof.
  destruct e; try reflexivity.
  unfold call_endpoint.
  destruct (code_cases fname) as [-> | ->]; [|reflexivity].
  unfold bind. rewrite read_root_spec.
  destruct (kernel_hostname (os p)); reflexivity.
Qed.

Lemma dispatch_state (a : FastAPI) (req : Request) (p : Process) :
  snd (dispatch a req p) = p.
Proof.
  unfold dispatch.
  destruct (find_route (routes a) (method req) (path req) None) as [r|].
  - unfold handle. destruct (allows r (method req)).
    + apply call_endpoint_state.
    + reflexivity.
  - destruct (negb (String.eqb (path req) "/") &&
              path_known (routes a) (redirect_path (path req))); [|reflexivity].
    unfold bind, lift.
    destruct (redirect_url req (redirect_path (path req))); reflexivity.
Qed.

(** Serving a request leaves the process as it was, whatever it was. *)
Lemma serve_state (p : Process) (req : Request) : snd (serve p req) = p.
Proof.
  unfold serve.
  destruct (lookup (globals p) "app") as [[q|n|n|a]|]; try reflexivity.
  pose proof (dispatch_state a req p) as H.
  destruct (dispatch a req p) as [[resp|e] p']; exact H.
Qed.

Lemma lookup_app : lookup main_py "app" = Some (ObjApp app).
Proof. reflexivity. Qed.

Lemma serve_booted (p : Process) (req : Request) :
  booted p ->
  serve p req = (answered (fst (dispatch app req p)), p).
Proof.
  unfold booted. intros Hb. unfold serve. rewrite Hb, lookup_app.
  pose proof (dispatch_state app req p) as H.
  destruct (dispatch app req p) as [[resp|e] p']; cbn in H; subst p'; reflexivity.
Qed.

Lemma path_regex_match_spec (pattern p : string) :
  path_regex_match pattern p = true
  <-> p = pattern \/ p = (pattern ++ String newline "")%string.
Proof.
  unfold path_regex_match. rewrite orb_true_iff, !String.eqb_eq.
  intuition congruence.
Qed.

Lemma find_root_route (pth : string) :
  path_regex_match "/" pth = true ->
  find_route (routes app) "GET" pth None
  = Some (mkRoute "/" ["GET"] (PathOperation "read_root")).
Proof.
  intros H. apply path_regex_match_spec in H as [-> | ->]; reflexivity.
Qed.

(** The response to a [GET] request routed to [read_root], in a process
    that imported the module. *)
Lemma serve_routed (p : Process) (req : Request) :
  booted p -> routed_to_root req = true ->
  serve p req = (root_response (os p), p).
Proof.
  intros Hb Hreq. rewrite (serve_booted p req Hb). f_equal.
  unfold routed_to_root in Hreq. apply andb_prop in Hreq as [Hm Hp].
  apply String.eqb_eq in Hm.
  unfold dispatch. rewrite Hm, (find_root_route _ Hp).
  unfold handle. rewrite Hm.
  change (allows (mkRoute "/" ["GET"] (PathOperation "read_root")) "GET") with true.
  cbn [endpoint call_endpoint].
  change (code "read_root") with (Some read_root).
  cbn match. unfold bind. rewrite read_root_spec. unfold root_response.
  destruct (kernel_hostname (os p)); reflexivity.
Qed.

Lemma get_root_routed (req : Request) :
  is_get_root req = true -> routed_to_root req = true.
Proof.
  unfold is_get_root, routed_to_root, path_regex_match. intros H.
  apply andb_prop in H as [Hm Hp]. rewrite Hm.
  apply String.eqb_eq in Hp. rewrite Hp. reflexivity.
Qed.

Lemma serve_root (p : Process) (req : Request) :
  booted p -> is_get_root req = true ->
  serve p req = (root_response (os p), p).
Proof. intros Hb Hreq. apply serve_routed; [exact Hb | now apply get_root_routed]. Qed.

(** *** The three outcomes of [GET /] *)

Lemma encodable_response_body (h : pystr) :
  encodable (json_dumps (response_body h)) = encodable h.
Proof.
  unfold response_body. cbn [json_dumps map join fst snd].
  rewrite !encodable_app, !encodable_basestring, !encodable_lit.
  cbn [andb]. now rewrite andb_true_r.
Qed.

Lemma response_for_utf8 (bytes : string) :
  utf8 bytes = true ->
  exists text,
    response_for (fsdecode bytes)
    = mkResponse 200 (Some "application/json") None (Text text) /\
    json_loads text
    = Some [("message", JString "Hello from FastAPI"); ("hostname", JString bytes)].
Proof.
  intros H. unfold response_for, JSONResponse, render, encode_utf8.
  rewrite encodable_response_body. unfold utf8 in H. rewrite H.
  eexists. split; [reflexivity|].
  unfold response_body. rewrite json_loads_dumps.
  - cbn [jitems_of map fst snd jval_of].
    now rewrite !units_of_lit, units_of_fsdecode.
  - unfold plain_items. cbn [forallb fst snd plain_value].
    rewrite !plain_lit, (utf8_plain bytes H). reflexivity.
Qed.

Lemma response_for_not_utf8 (bytes : string) :
  utf8 bytes = false -> response_for (fsdecode bytes) = server_error.
Proof.
  intros H. unfold response_for, JSONResponse, render, encode_utf8.
  rewrite encodable_response_body. unfold utf8 in H. now rewrite H.
Qed.

Lemma root_response_utf8 (w : OS) (buf : string) :
  kernel_hostname w = Some buf -> utf8 (Socket.c_str buf) = true ->
  exists text,
    root_response w = mkResponse 200 (Some "application/json") None (Text text) /\
    json_loads text
    = Some [("message", JString "Hello from FastAPI");
            ("hostname", JString (Socket.c_str buf))].
Proof.
  intros Hk Hu. unfold root_response. rewrite Hk. now apply response_for_utf8.
Qed.

Lemma root_response_failure (w : OS) :
  resolves_to_utf8 w = false -> root_response w = server_error.
Proof.
  unfold resolves_to_utf8, root_response.
  destruct (kernel_hostname w) as [buf|]; [|reflexivity].
  apply response_for_not_utf8.
Qed.

(** *** Sequences of events *)

Lemma run_app (p : Process) (evs1 evs2 : list Event) :
  run p (evs1 ++ evs2) =
  (fst (run p evs1) ++ fst (run (snd (run p evs1)) evs2),
   snd (run (snd (run p evs1)) evs2))%list.
Proof.
  revert p; induction evs1 as [|[req|h] evs1 IH]; intros p.
  - cbn. now destruct (run p evs2).
  - cbn [List.app run].
    destruct (serve p req) as [resp p'].
    rewrite IH. destruct (run p' evs1) as [resps p''].
    cbn. now destruct (run p'' evs2).
  - cbn [List.app run]. apply IH.
Qed.

Lemma run_globals (p : Process) (evs : list Event) :
  globals (snd (run p evs)) = globals p.
Proof.
  revert p; induction evs as [|[req|h] evs IH]; intros p.
  - reflexivity.
  - cbn [run]. pose proof (serve_state p req) as Hs.
    destruct (serve p req) as [resp p']. cbn in Hs. subst p'.
    specialize (IH p). destruct (run p evs). exact IH.
  - cbn [run]. now rewrite IH.
Qed.

Lemma run_booted (w : OS) (evs : list Event) :
  booted (snd (run (boot w) evs)).
Proof. unfold booted. now rewrite run_globals. Qed.

Lemma run_quiet (p : Process) (evs : list Event) :
  quiet evs = true -> snd (run p evs) = p.
Proof.
  induction evs as [|[req|h] evs IH]; intros Hq.
  - reflexivity.
  - cbn [run]. pose proof (serve_state p req) as Hs.
    destruct (serve p req) as [resp p']. cbn in Hs. subst p'.
    specialize (IH Hq). destruct (run p evs). exact IH.
  - discriminate.
Qed.

Lemma run_os (p : Process) (evs : list Event) :
  os (snd (run p evs))
  = mkOS (hostname_after (kernel_hostname (os p)) evs)
         (disk (os p)) (outbound (os p)).
Proof.
  revert p; induction evs as [|[req|h] evs IH]; intros p.
  - cbn. now destruct (os p).
  - cbn [run hostname_after]. pose proof (serve_state p req) as Hs.
    destruct (serve p req) as [resp p']. cbn in Hs. subst p'.
    specialize (IH p). destruct (run p evs). exact IH.
  - cbn [run hostname_after]. now rewrite IH.
Qed.


End Serving.

(** ** Routing *)

Section Routing.

Lemma path_known_spec (rs : list Route) (p : string) :
  path_known rs p = true
  <-> exists q, In q (map route_path rs) /\
                (p = q \/ p = (q ++ String newline "")%string).
Proof.
  unfold path_known. rewrite existsb_exists. split.
  - intros [r [Hin Hm]]. exists (route_path r). split.
    + now apply in_map.
    + now apply path_regex_match_spec.
  - intros [q [Hin Hm]]. apply in_map_iff in Hin as [r [<- Hin]].
    exists r. split; [exact Hin|]. now apply path_regex_match_spec.
Qed.

Lemma path_unmatched (a : FastAPI) (p : string) :
  unmatched a p -> path_known (routes a) p = false.
Proof.
  intros Hu. destruct (path_known (routes a) p) eqn:E; [|reflexivity].
  apply path_known_spec in E as [q [Hin Hm]].
  destruct (Hu q Hin) as [H1 H2]. destruct Hm; contradiction.
Qed.

(** A path no route matches gives no route. *)
Lemma find_route_unknown (rs : list Route) (m p : string) (partial : option Route) :
  path_known rs p = false -> find_route rs m p partial = partial.
Proof.
  revert partial; induction rs as [|r rs IH]; intros partial Hk.
  - reflexivity.
  - cbn [path_known existsb] in Hk. apply orb_false_elim in Hk as [Hr Hrs].
    cbn [find_route]. unfold matches. rewrite Hr. now apply IH.
Qed.

(** The route found is one of the table and matches the path. *)
Lemma find_route_found (rs : list Route) (m p : string) (partial : option Route)
      (r : Route) :
  find_route rs m p partial = Some r ->
  partial = Some r \/ (In r rs /\ path_regex_match (route_path r) p = true).
Proof.
  revert partial; induction rs as [|r0 rs IH]; intros partial H.
  - now left.
  - cbn [find_route] in H. unfold matches in H.
    destruct (path_regex_match (route_path r0) p) eqn:Hm.
    + destruct (allows r0 m).
      * injection H as <-. right. split; [now left | exact Hm].
      * apply IH in H as [H | [Hin Hr]].
        -- destruct partial as [r1|].
           ++ now left.
           ++ injection H as <-. right. split; [now left | exact Hm].
        -- right. split; [now right | exact Hr].
    + apply IH in H as [H | [Hin Hr]].
      * now left.
      * right. split; [now right | exact Hr].
Qed.

Lemma dispatch_unknown (a : FastAPI) (req : Request) (p : Process) :
  path_known (routes a) (path req) = false ->
  path_known (routes a) (redirect_path (path req)) = false ->
  dispatch a req p = (Ok not_found, p).
Proof.
  intros H1 H2. unfold dispatch.
  rewrite (find_route_unknown _ _ _ None H1), H2, andb_false_r.
  reflexivity.
Qed.

Lemma dispatch_root_other_method (req : Request) (p : Process) :
  path req = "/" -> method req <> "GET" ->
  dispatch app req p = (Ok method_not_allowed, p).
Proof.
  intros Hp Hm. apply String.eqb_neq in Hm.
  unfold dispatch. rewrite Hp.
  assert (find_route (routes app) (method req) "/" None
          = Some (mkRoute "/" ["GET"] (PathOperation "read_root"))) as ->.
  { cbn. now rewrite Hm. }
  unfold handle, allows. cbn [route_methods existsb]. now rewrite Hm.
Qed.

(** A request that is not routed to [read_root] is answered from the
    request alone. The answer is the server error only when the redirect
    of [redirect_slashes] cannot be built. *)
Lemma dispatch_elsewhere (req : Request) :
  routed_to_root req = false ->
  exists r : Result Response,
    (forall p, dispatch app req p = (r, p)) /\
    (status_code (answered r) = 500
     <-> slash_redirected app req = true /\ utf8 (query_string req) = false).
Proof.
  intros Hreq. unfold dispatch, slash_redirected.
  destruct (find_route (routes app) (method req) (path req) None) as [r|] eqn:Hf.
  - apply find_route_found in Hf as [Hf | [Hin Hm]]; [discriminate|].
    assert (exists resp, status_code resp <> 500 /\
                         forall p, handle r req p = (Ok resp, p)) as [resp [Hst Hh]].
    { unfold handle.
      destruct (allows r (method req)) eqn:Ha.
      - cbn in Hin.
        destruct Hin as [<-|[<-|[<-|[<-|[<-|[]]]]]];
          try (eexists; split; [|intros p; reflexivity]; cbn; discriminate).
        exfalso. unfold allows in Ha. cbn in Ha, Hm.
        rewrite orb_false_r in Ha.
        unfold routed_to_root in Hreq. rewrite Ha in Hreq.
        cbn in Hreq. congruence.
      - eexists; split; [|intros p; reflexivity]. cbn. discriminate. }
    exists (Ok resp). split; [exact Hh|].
    cbn [answered]. split; [contradiction | intros [H _]; discriminate H].
  - destruct (negb (String.eqb (path req) "/") &&
              path_known (routes app) (redirect_path (path req))) eqn:Hc.
    + unfold bind, lift, ret, redirect_url.
      destruct (String.eqb (query_string req) "") eqn:Hq.
      * apply String.eqb_eq in Hq. rewrite Hq.
        eexists. split; [intros p; reflexivity|].
        cbn. split; [discriminate | intros [_ H]; discriminate H].
      * unfold decode_utf8.
        destruct (utf8 (query_string req)) eqn:Hu.
        -- eexists. split; [intros p; reflexivity|].
           cbn. split; [discriminate | intros [_ H]; discriminate H].
        -- exists (Raised UnicodeDecodeError). split; [intros p; reflexivity|].
           cbn. split; [intros _; split; reflexivity | reflexivity].
    + eexists. split; [intros p; reflexivity|].
      cbn. split; [discriminate | intros [H _]; discriminate H].
Qed.

Lemma serve_elsewhere (req : Request) :
  routed_to_root req = false ->
  exists resp,
    (forall p, booted p -> serve p req = (resp, p)) /\
    (status_code resp = 500
     <-> slash_redirected app req = true /\ utf8 (query_string req) = false).
Proof.
  intros Hreq.
  destruct (dispatch_elsewhere req Hreq) as [r [Hd Hst]].
  exists (answered r). split; [|exact Hst].
  intros p Hb. now rewrite (serve_booted p req Hb), (Hd p).
Qed.

Lemma routed_not_redirected (req : Request) :
  routed_to_root req = true -> slash_redirected app req = false.
Proof.
  unfold routed_to_root, slash_redirected. intros H.
  apply andb_prop in H as [Hm Hp]. apply String.eqb_eq in Hm.
  now rewrite Hm, (find_root_route _ Hp).
Qed.

End Routing.

(** ** The service on concrete requests *)

Example head_root_not_allowed :
  fst (serve (boot web1) (mkRequest "HEAD" "/" "" [] "")) = method_not_allowed.
Proof. reflexivity. Qed.

Example get_redoc_served :
  status_code (fst (serve (boot web1) (mkRequest "GET" "/redoc" "" [] ""))) = 200.
Proof. reflexivity. Qed.

Example post_docs_not_allowed :
  fst (serve (boot web1) (mkRequest "POST" "/docs" "" [] "")) = method_not_allowed.
Proof. reflexivity. Qed.

Example docs_slash_redirected :
  fst (serve (boot web1)
         (mkRequest "GET" "/docs/" "a=1" [("host", "lb.example")] ""))
  = mkResponse 307 None (Some "http://lb.example/docs?a=1") NoBody.
Proof. reflexivity. Qed.

Example redirect_location_quoted :
  location (fst (serve (boot web1)
                   (mkRequest "GET" ("/docs" ++ String newline "/") "" [] "")))
  = Some "/docs%0A".
Proof. reflexivity. Qed.

Example redirect_query_not_utf8 :
  fst (serve (boot web1)
         (mkRequest "GET" "/docs/" (String (ascii_of_nat 255) "") [] ""))
  = server_error.
Proof. reflexivity. Qed.

Example double_slash_not_found :
  fst (serve (boot web1) (mkRequest "GET" "//" "" [] "")) = not_found.
Proof. reflexivity. Qed.

Example not_found_detail :
  status_code not_found = 404 /\
  body_field not_found "detail" = Some (JString "Not Found").
Proof. split; reflexivity. Qed.

Example root_newline_served :
  serve (boot web1) (mkRequest "GET" (String slash (String newline "")) "" [] "")
  = serve (boot web1) get_root.
Proof. reflexivity. Qed.

Example docs_newline_served :
  status_code
    (fst (serve (boot web1)
            (mkRequest "GET" ("/docs" ++ String newline "") "" [] ""))) = 200.
Proof. reflexivity. Qed.

Example escaped_name_read_back :
  body_field
    (fst (serve (boot (mkOS (Some (String dquote (String backslash
                                    (String (ascii_of_nat 10) "x")))) [] []))
                get_root))
    "hostname"
  = Some (JString (String dquote (String backslash (String (ascii_of_nat 10) "x")))).
Proof. reflexivity. Qed.

(** U+00E9 in a host name: the bytes 0xC3 0xA9 are one character, and
    are the bytes of the member read back. *)
Example two_byte_name_read_back :
  fsdecode (String (ascii_of_nat 195) (String (ascii_of_nat 169) ""))
  = [Chr (String (ascii_of_nat 195) (String (ascii_of_nat 169) ""))] /\
  body_field
    (fst (serve (boot (mkOS (Some (String (ascii_of_nat 195)
                                     (String (ascii_of_nat 169) ""))) [] []))
                get_root))
    "hostname"
  = Some (JString (String (ascii_of_nat 195) (String (ascii_of_nat 169) ""))).
Proof. split; reflexivity. Qed.

(** The byte 0xFF in a host name is escaped to a lone surrogate, which
    the response cannot encode. *)
Example misnamed_server_error :
  fst (Socket.gethostname (boot misnamed)) = Ok [Surrogate (ascii_of_nat 255)] /\
  fst (serve (boot misnamed) get_root) = server_error.
Proof. split; reflexivity. Qed.

Example name_ends_at_nul :
  body_field
    (fst (serve (boot (mkOS (Some ("web" ++ String (ascii_of_nat 0) "x")) [] []))
                get_root))
    "hostname"
  = Some (JString "web").
Proof. reflexivity. Qed.

(** ** The claims *)

Lemma root_fields (p : Process) (req : Request) (buf : string) :
  booted p -> is_get_root req = true ->
  kernel_hostname (os p) = Some buf -> utf8 (Socket.c_str buf) = true ->
  exists text,
    fst (serve p req) = mkResponse 200 (Some "application/json") None (Text text) /\
    json_loads text
    = Some [("message", JString "Hello from FastAPI");
            ("hostname", JString (Socket.c_str buf))].
Proof.
  intros Hb Hreq Hk Hu. rewrite (serve_root p req Hb Hreq).
  now apply root_response_utf8.
Qed.

Lemma hostname_field (p : Process) (req : Request) (buf : string) :
  booted p -> is_get_root req = true ->
  kernel_hostname (os p) = Some buf -> utf8 (Socket.c_str buf) = true ->
  body_field (fst (serve p req)) "hostname" = Some (JString (Socket.c_str buf)).
Proof.
  intros Hb Hreq Hk Hu.
  destruct (root_fields p req buf Hb Hreq Hk Hu) as [text [-> Hl]].
  unfold body_field. cbn [content]. now rewrite Hl.
Qed.

Lemma message_field (p : Process) (req : Request) (buf : string) :
  booted p -> is_get_root req = true ->
  kernel_hostname (os p) = Some buf -> utf8 (Socket.c_str buf) = true ->
  body_field (fst (serve p req)) "message" = Some (JString "Hello from FastAPI").
Proof.
  intros Hb Hreq Hk Hu.
  destruct (root_fields p req buf Hb Hreq Hk Hu) as [text [-> Hl]].
  unfold body_field. cbn [content]. now rewrite Hl.
Qed.




(** C2, as stated, fails: where the kernel's host name is the empty
    string, the [hostname] member of the response is the empty string. *)
Lemma hostname_may_be_empty_C2 :
  ~ (forall (p : Process) (req : Request),
        booted p -> is_get_root req = true ->
        exists s, body_field (fst (serve p req)) "hostname" = Some (JString s) /\
                  s <> "" /\
                  option_map Socket.c_str (kernel_hostname (os p)) = Some s).
Proof.
  intros H.
  destruct (H (boot unnamed) get_root eq_refl eq_refl) as [s [Hfield [Hne _]]].
  rewrite (hostname_field (boot unnamed) get_root "" eq_refl eq_refl eq_refl eq_refl)
    in Hfield.
  apply Hne. now inversion Hfield.
Qed.

(** C2, amended. A [GET /] request served while the kernel reports a
    host name that is well-formed UTF-8 carries that name as its
    [hostname] member, a string; the member is non-empty exactly when
    the reported name is. *)
Theorem hostname_is_reported_name_C2 (p : Process) (req : Request) (buf : string) :
  booted p -> is_get_root req = true ->
  kernel_hostname (os p) = Some buf -> utf8 (Socket.c_str buf) = true ->
  body_field (fst (serve p req)) "hostname" = Some (JString (Socket.c_str buf)) /\
  (body_field (fst (serve p req)) "hostname" <> Some (JString "")
   <-> Socket.c_str buf <> "").
Proof.
  intros Hb Hreq Hk Hu. rewrite (hostname_field p req buf Hb Hreq Hk Hu).
  split; [reflexivity|]. split.
  - intros Hne He. apply Hne. now rewrite He.
  - intros Hne He. apply Hne. now inversion He.
Qed.

Lemma hostname_is_reported_name_C2_witness :
  body_field (fst (serve (boot web1) get_root)) "hostname" = Some (JString "web-1") /\
  (body_field (fst (serve (boot web1) get_root)) "hostname" <> Some (JString "")
   <-> "web-1" <> "").
Proof.
  apply (hostname_is_reported_name_C2 (boot web1) get_root "web-1"); reflexivity.
Defined.

(** C3. When the host name cannot be resolved, a [GET /] request is
    answered with status 500 and the fixed body ["Internal Server
    Error"], every time; the process is left as it was and goes on
    serving what follows as if the request had not been made. *)
Theorem resolution_failure_C3 (p : Process) (req : Request) :
  booted p -> is_get_root req = true -> kernel_hostname (os p) = None ->
  fst (serve p req) = server_error /\
  status_code server_error = 500 /\
  content server_error = Text "Internal Server Error" /\
  forall evs : list Event,
    run p (Incoming req :: evs) = (server_error :: fst (run p evs), snd (run p evs)).
Proof.
  intros Hb Hreq Hh.
  assert (serve p req = (server_error, p)) as Hs.
  { rewrite (serve_root p req Hb Hreq). unfold root_response. now rewrite Hh. }
  rewrite Hs. repeat split.
  intros evs. cbn [run]. rewrite Hs. now destruct (run p evs).
Qed.

Lemma resolution_failure_C3_witness :
  fst (serve (boot unresolved) get_root) = server_error /\
  status_code server_error = 500 /\
  content server_error = Text "Internal Server Error" /\
  forall evs : list Event,
    run (boot unresolved) (Incoming get_root :: evs)
    = (server_error :: fst (run (boot unresolved) evs),
       snd (run (boot unresolved) evs)).
Proof.
  apply (resolution_failure_C3 (boot unresolved) get_root); reflexivity.
Defined.

(** C4, as stated, fails: between two [GET /] requests of one instance
    the machine is renamed, and the two responses differ. *)
Lemma responses_differ_after_rename_C4 :
  ~ (forall (w : OS) (evs1 evs2 : list Event) (req1 req2 : Request),
        is_get_root req1 = true -> is_get_root req2 = true ->
        fst (serve (snd (run (boot w) evs1)) req1)
        = fst (serve (snd (run (boot w) (evs1 ++ Incoming req1 :: evs2))) req2)).
Proof.
  intros H.
  specialize (H (mkOS (Some "a") [] []) [] [Sethostname (Some "b")]
                get_root get_root eq_refl eq_refl).
  vm_compute in H. discriminate H.
Qed.

(** C4, amended. Two [GET /] invocations of one instance between which
    the environment does not change the host name get the same response,
    whatever requests are served in between and in whatever order: same
    [message], same [hostname]. *)
Theorem responses_stable_C4 (w : OS) (evs1 evs2 : list Event) (req1 req2 : Request) :
  is_get_root req1 = true -> is_get_root req2 = true -> quiet evs2 = true ->
  fst (serve (snd (run (boot w) evs1)) req1)
  = fst (serve (snd (run (boot w) (evs1 ++ Incoming req1 :: evs2))) req2).
Proof.
  intros H1 H2 Hq.
  rewrite run_app. cbn [snd].
  set (p1 := snd (run (boot w) evs1)).
  assert (snd (run p1 (Incoming req1 :: evs2)) = p1) as ->.
  { apply run_quiet. exact Hq. }
  assert (booted p1) as Hb by apply run_booted.
  now rewrite (serve_root p1 req1 Hb H1), (serve_root p1 req2 Hb H2).
Qed.

Lemma responses_stable_C4_witness :
  fst (serve (snd (run (boot web1) [Incoming get_root])) get_root)
  = fst (serve (snd (run (boot web1)
                         ([Incoming get_root] ++
                          Incoming get_root
                          :: [Incoming (mkRequest "GET" "/docs" "" [] "");
                              Incoming (mkRequest "POST" "/" "" [] "x")])))
               (mkRequest "GET" "/" "a=1" [("accept", "*/*")] "")).
Proof.
  apply (responses_stable_C4 web1 [Incoming get_root]
           [Incoming (mkRequest "GET" "/docs" "" [] "");
            Incoming (mkRequest "POST" "/" "" [] "x")]
           get_root (mkRequest "GET" "/" "a=1" [("accept", "*/*")] ""));
    reflexivity.
Defined.

(** C5, as stated, fails: the application built by [FastAPI()] also
    answers the documentation paths, so a path other than [/] is not
    always met with "not found". *)
Lemma docs_path_is_served_C5 :
  ~ (forall (w : OS) (req : Request),
        path req <> "/" -> status_code (fst (serve (boot w) req)) = 404).
Proof.
  intros H.
  specialize (H web1 (mkRequest "GET" "/docs" "" [] "")).
  cbn [path] in H.
  assert ("/docs" <> "/") as Hne by discriminate.
  specialize (H Hne). vm_compute in H. discriminate H.
Qed.

(** C5, amended. The paths the application knows are [/] and the four
    documentation paths the framework installs; a route matches its path
    and its path followed by one newline. A request whose path no route
    matches, also after the framework's trailing-slash adjustment, gets
    the framework's 404 response, [{"detail":"Not Found"}]; a request to
    [/] with a method other than GET gets the framework's 405 response,
    [{"detail":"Method Not Allowed"}]. Both are answered and leave the
    process as it was. *)
Theorem unregistered_requests_C5 (p : Process) (req : Request) :
  booted p ->
  registered_paths app
  = ["/openapi.json"; "/docs"; "/docs/oauth2-redirect"; "/redoc"; "/"] /\
  (unmatched app (path req) -> unmatched app (redirect_path (path req)) ->
   serve p req = (not_found, p) /\
   status_code not_found = 404 /\
   body_field not_found "detail" = Some (JString "Not Found")) /\
  (path req = "/" -> method req <> "GET" ->
   serve p req = (method_not_allowed, p) /\
   status_code method_not_allowed = 405 /\
   body_field method_not_allowed "detail" = Some (JString "Method Not Allowed")).
Proof.
  intros Hb. split; [reflexivity|]. split.
  - intros H1 H2. split; [|split; reflexivity].
    rewrite (serve_booted p req Hb).
    now rewrite (dispatch_unknown app req p (path_unmatched _ _ H1)
                   (path_unmatched _ _ H2)).
  - intros Hp Hm. split; [|split; reflexivity].
    rewrite (serve_booted p req Hb).
    now rewrite (dispatch_root_other_method req p Hp Hm).
Qed.

Lemma unregistered_requests_C5_witness :
  (serve (boot web1) (mkRequest "GET" "/nonexistent" "" [] "")
   = (not_found, boot web1) /\
   status_code not_found = 404 /\
   body_field not_found "detail" = Some (JString "Not Found")) /\
  (serve (boot web1) (mkRequest "POST" "/" "" [] "")
   = (method_not_allowed, boot web1) /\
   status_code method_not_allowed = 405 /\
   body_field method_not_allowed "detail" = Some (JString "Method Not Allowed")).
Proof.
  split.
  - apply (unregistered_requests_C5 (boot web1)
             (mkRequest "GET" "/nonexistent" "" [] "") eq_refl).
    + intros q Hq. cbn in Hq.
      destruct Hq as [<-|[<-|[<-|[<-|[<-|[]]]]]]; split; discriminate.
    + intros q Hq. cbn in Hq.
      destruct Hq as [<-|[<-|[<-|[<-|[<-|[]]]]]]; split; discriminate.
  - apply (unregistered_requests_C5 (boot web1)
             (mkRequest "POST" "/" "" [] "") eq_refl).
    + reflexivity.
    + cbn. discriminate.
Defined.

(** C6. Two [GET /] requests arriving in the same process state get the
    same response and leave the same state, whatever their query
    strings, headers and bodies. *)
Theorem request_data_ignored_C6 (p : Process) (req1 req2 : Request) :
  is_get_root req1 = true -> is_get_root req2 = true ->
  serve p req1 = serve p req2.
Proof.
  unfold is_get_root. intros H1 H2.
  apply andb_prop in H1 as [Hm1 Hp1]. apply andb_prop in H2 as [Hm2 Hp2].
  apply String.eqb_eq in Hm1, Hp1, Hm2, Hp2.
  unfold serve. destruct (lookup (globals p) "app") as [[q|n|n|a]|]; try reflexivity.
  assert (dispatch a req1 p = dispatch a req2 p) as ->; [|reflexivity].
  unfold dispatch, handle. rewrite Hm1, Hp1, Hm2, Hp2. reflexivity.
Qed.

Lemma request_data_ignored_C6_witness :
  serve (boot web1) get_root
  = serve (boot web1)
          (mkRequest "GET" "/" "user=alice&x=1"
             [("authorization", "Bearer t"); ("x-forwarded-for", "10.0.0.7")]
             "payload").
Proof.
  apply (request_data_ignored_C6 (boot web1)); reflexivity.
Defined.

Lemma run_os_frame (p : Process) (evs : list Event) :
  disk (os (snd (run p evs))) = disk (os p) /\
  outbound (os (snd (run p evs))) = outbound (os p).
Proof. rewrite run_os. split; reflexivity. Qed.

(** C7. The handler returns the process state it was given: nothing on
    disk, no call to another service, no module global is changed, and
    the kernel's host name is only read. The same holds of serving any
    request, and so, over any sequence of events, the disk, the outbound
    calls and the globals stay what they were at start. *)
Theorem no_side_effects_C7 (p : Process) (req : Request) (evs : list Event) :
  snd (read_root p) = p /\
  snd (serve p req) = p /\
  disk (os (snd (run p evs))) = disk (os p) /\
  outbound (os (snd (run p evs))) = outbound (os p) /\
  globals (snd (run p evs)) = globals p.
Proof.
  split; [now rewrite read_root_spec|].
  split; [apply serve_state|].
  destruct (run_os_frame p evs) as [Hd Ho].
  repeat split; [exact Hd | exact Ho | apply run_globals].
Qed.

(** C8, as stated, fails: on a machine whose name is the byte 0xFF the
    handler returns a [hostname] that holds a lone surrogate, a [str]
    with no UTF-8 encoding. *)
Lemma hostname_may_not_be_utf8_C8 :
  ~ (forall (p : Process) (v : PyVal),
        fst (read_root p) = Ok v ->
        exists m h,
          v = PyDict [(lit "message", PyStr m); (lit "hostname", PyStr h)] /\
          encodable m = true /\ encodable h = true).
Proof.
  intros H.
  destruct (H (boot misnamed) (response_body [Surrogate (ascii_of_nat 255)]) eq_refl)
    as [m [h [Hv [_ Hh]]]].
  injection Hv as <- <-. discriminate Hh.
Qed.

(** C8, amended. Whenever the handler returns a body, it is a dict of
    the two members [message] and [hostname], both [str] values (never
    [None]). [message] has a UTF-8 encoding; [hostname] has one exactly
    when the kernel's host name is well-formed UTF-8, and then both are
    read back as strings from the response to [GET /]; otherwise that
    response is the server error. *)
Theorem fields_are_strings_C8 (p : Process) (v : PyVal) :
  fst (read_root p) = Ok v ->
  exists m h,
    v = PyDict [(lit "message", PyStr m); (lit "hostname", PyStr h)] /\
    encodable m = true /\
    encodable h = resolves_to_utf8 (os p) /\
    forall req, booted p -> is_get_root req = true ->
      if encodable h
      then body_field (fst (serve p req)) "message" = Some (JString (units_of m)) /\
           body_field (fst (serve p req)) "hostname" = Some (JString (units_of h))
      else fst (serve p req) = server_error.
Proof.
  rewrite read_root_spec. cbn [fst]. unfold resolves_to_utf8.
  destruct (kernel_hostname (os p)) as [buf|] eqn:Hk; [|discriminate].
  intros Hv. injection Hv as <-.
  exists (lit "Hello from FastAPI"), (fsdecode (Socket.c_str buf)).
  split; [reflexivity|]. split; [reflexivity|]. split; [reflexivity|].
  intros req Hb Hreq.
  destruct (encodable (fsdecode (Socket.c_str buf))) eqn:Hu.
  - rewrite units_of_fsdecode. split.
    + now apply (message_field p req buf).
    + now apply (hostname_field p req buf).
  - rewrite (serve_root p req Hb Hreq). apply root_response_failure.
    unfold resolves_to_utf8. now rewrite Hk.
Qed.

Lemma fields_are_strings_C8_witness :
  exists m h,
    response_body (lit "web-1")
    = PyDict [(lit "message", PyStr m); (lit "hostname", PyStr h)] /\
    encodable m = true /\
    encodable h = resolves_to_utf8 (os (boot web1)) /\
    forall req, booted (boot web1) -> is_get_root req = true ->
      if encodable h
      then body_field (fst (serve (boot web1) req)) "message"
           = Some (JString (units_of m)) /\
           body_field (fst (serve (boot web1) req)) "hostname"
           = Some (JString (units_of h))
      else fst (serve (boot web1) req) = server_error.
Proof.
  apply (fields_are_strings_C8 (boot web1) (response_body (lit "web-1"))).
  reflexivity.
Defined.



(** C10, as stated, fails: the application object holds five routes,
    not one. *)
Lemma app_has_builtin_routes_C10 :
  ~ (routes app = [mkRoute "/" ["GET"] (PathOperation "read_root")]).
Proof. vm_compute. discriminate. Qed.

(** C10, amended. Importing the module adds exactly one route to the
    application object [FastAPI()] builds, [GET /] mapped to
    [read_root], and it is the only route that leads to a function of
    the module; the others are the framework's four documentation
    routes. The module defines the one function [read_root] and binds
    one instance, [app]. *)
Theorem module_registers_one_route_C10 :
  routes app
  = (routes new_FastAPI ++ [mkRoute "/" ["GET"] (PathOperation "read_root")])%list /\
  path_operations app = [mkRoute "/" ["GET"] (PathOperation "read_root")] /\
  path_operations new_FastAPI = [] /\
  lookup main_py "app" = Some (ObjApp app) /\
  functions_of main_py = ["read_root"] /\
  instances_of main_py = ["app"] /\
  code "read_root" = Some read_root /\
  forall fname, code fname <> None -> fname = "read_root".
Proof.
  repeat split.
  intros fname Hc. unfold code in Hc.
  destruct (String.eqb fname "read_root") eqn:E.
  - now apply String.eqb_eq.
  - contradiction.
Qed.

(** ** Further properties of the service *)

(** The host name is disclosed by the route of [read_root] alone: a
    request that is not a [GET] on [/] (or on [/] followed by a newline)
    gets the same response on every machine, whatever its host name and
    whether or not it can be resolved. *)
Theorem hostname_disclosed_only_at_root (p1 p2 : Process) (req : Request) :
  booted p1 -> booted p2 -> routed_to_root req = false ->
  fst (serve p1 req) = fst (serve p2 req).
Proof.
  intros H1 H2 Hreq.
  destruct (serve_elsewhere req Hreq) as [resp [Hall _]].
  now rewrite (Hall p1 H1), (Hall p2 H2).
Qed.

Lemma hostname_disclosed_only_at_root_witness :
  fst (serve (boot web1) (mkRequest "GET" "/docs" "" [] ""))
  = fst (serve (boot misnamed) (mkRequest "GET" "/docs" "" [] "")).
Proof.
  apply (hostname_disclosed_only_at_root (boot web1) (boot misnamed)
           (mkRequest "GET" "/docs" "" [] "")); reflexivity.
Defined.

(** A response has status 500 in exactly two cases: the request is
    routed to [read_root] and the host name does not resolve to
    well-formed UTF-8; or the request is met with the trailing-slash
    redirect and its query string is not UTF-8, so that the redirect URL
    cannot be built. *)
Theorem server_error_cases (p : Process) (req : Request) :
  booted p ->
  (status_code (fst (serve p req)) = 500
   <-> (routed_to_root req = true /\ resolves_to_utf8 (os p) = false)
       \/ (slash_redirected app req = true /\ utf8 (query_string req) = false)).
Proof.
  intros Hb. destruct (routed_to_root req) eqn:Hreq.
  - rewrite (serve_routed p req Hb Hreq). cbn [fst].
    rewrite (routed_not_redirected req Hreq).
    destruct (resolves_to_utf8 (os p)) eqn:Hr.
    + unfold resolves_to_utf8 in Hr.
      destruct (kernel_hostname (os p)) as [buf|] eqn:Hk; [|discriminate].
      destruct (root_response_utf8 (os p) buf Hk Hr) as [text [-> _]].
      cbn. split; [discriminate|].
      intros [[_ H]|[H _]]; discriminate H.
    + rewrite (root_response_failure (os p) Hr).
      split; [intros _; left; split; reflexivity | reflexivity].
  - destruct (serve_elsewhere req Hreq) as [resp [Hall Hst]].
    rewrite (Hall p Hb). cbn [fst]. rewrite Hst. split.
    + intros H. now right.
    + intros [[H _]|H]; [discriminate H | exact H].
Qed.

Lemma server_error_cases_witness :
  status_code (fst (serve (boot misnamed) get_root)) = 500
  <-> (routed_to_root get_root = true /\ resolves_to_utf8 (os (boot misnamed)) = false)
      \/ (slash_redirected app get_root = true /\ utf8 (query_string get_root) = false).
Proof.
  apply (server_error_cases (boot misnamed) get_root).
  reflexivity.
Defined.



(** After any sequence of requests and host name changes, the response
    to a [GET] request routed to [read_root] is decided by the host name
    set last (or the one at start, if none was set): status 200 with
    that name where it is well-formed UTF-8, the server error where it
    is not or where the name does not resolve. A failure does not stick
    once the name is good again, and an earlier name is never served. *)
Theorem response_follows_last_hostname (w : OS) (evs : list Event) (req : Request) :
  routed_to_root req = true ->
  match hostname_after (kernel_hostname w) evs with
  | Some buf =>
      if utf8 (Socket.c_str buf)
      then status_code (fst (serve (snd (run (boot w) evs)) req)) = 200 /\
           body_field (fst (serve (snd (run (boot w) evs)) req)) "message"
           = Some (JString "Hello from FastAPI") /\
           body_field (fst (serve (snd (run (boot w) evs)) req)) "hostname"
           = Some (JString (Socket.c_str buf))
      else fst (serve (snd (run (boot w) evs)) req) = server_error
  | None => fst (serve (snd (run (boot w) evs)) req) = server_error
  end.
Proof.
  intros Hreq.
  rewrite (serve_routed _ req (run_booted w evs) Hreq). cbn [fst].
  rewrite run_os. cbn [os boot].
  destruct (hostname_after (kernel_hostname w) evs) as [buf|] eqn:Hh;
    [|reflexivity].
  destruct (utf8 (Socket.c_str buf)) eqn:Hu.
  - destruct (root_response_utf8
                (mkOS (Some buf) (disk w) (outbound w)) buf eq_refl Hu)
      as [text [-> Hl]].
    unfold body_field. cbn [status_code content]. rewrite Hl.
    repeat split.
  - apply root_response_failure. unfold resolves_to_utf8. exact Hu.
Qed.

Lemma response_follows_last_hostname_witness :
  match hostname_after (kernel_hostname web1)
          [Sethostname None; Incoming get_root;
           Sethostname (Some "web-3"); Incoming get_root] with
  | Some buf =>
      if utf8 (Socket.c_str buf)
      then status_code
             (fst (serve (snd (run (boot web1)
                                   [Sethostname None; Incoming get_root;
                                    Sethostname (Some "web-3"); Incoming get_root]))
                         get_root)) = 200 /\
           body_field
             (fst (serve (snd (run (boot web1)
                                   [Sethostname None; Incoming get_root;
                                    Sethostname (Some "web-3"); Incoming get_root]))
                         get_root)) "message"
           = Some (JString "Hello from FastAPI") /\
           body_field
             (fst (serve (snd (run (boot web1)
                                   [Sethostname None; Incoming get_root;
                                    Sethostname (Some "web-3"); Incoming get_root]))
                         get_root)) "hostname"
           = Some (JString (Socket.c_str buf))
      else fst (serve (snd (run (boot web1)
                                [Sethostname None; Incoming get_root;
                                 Sethostname (Some "web-3"); Incoming get_root]))
                      get_root) = server_error
  | None => fst (serve (snd (run (boot web1)
                                [Sethostname None; Incoming get_root;
                                 Sethostname (Some "web-3"); Incoming get_root]))
                      get_root) = server_error
  end.
Proof.
  apply (response_follows_last_hostname web1). reflexivity.
Defined.
